(** * Public-domain scanner: record normalization, jurisdiction
      classification and partitioning ([src/wikidata_pd_scanner.py], [main]).

    Strings are modelled as Rocq [string]s over ASCII; a raw SPARQL binding
    is modelled by the values [get_val] returns for each of its keys. *)

From Stdlib Require Import ZArith String Ascii List Bool Lia.
Import ListNotations.
Open Scope string_scope.
Open Scope Z_scope.

(** ** Exceptions, as Python raises and catches them *)

Inductive exn : Type :=
| ValueError
| KeyError (k : string).

Inductive Exc (A : Type) : Type :=
| Ok (a : A)
| Raise (e : exn).
Arguments Ok {A} a.
Arguments Raise {A} e.

Definition ret {A} (a : A) : Exc A := Ok a.

Definition bind {A B} (m : Exc A) (f : A -> Exc B) : Exc B :=
  match m with
  | Ok a => f a
  | Raise e => Raise e
  end.

Notation "x <- m ;; k" := (bind m (fun x => k))
  (at level 61, m at next level, right associativity).

(** [try: m  except Exception: h] *)
Definition try_except {A} (m : Exc A) (h : exn -> Exc A) : Exc A :=
  match m with
  | Ok a => Ok a
  | Raise e => h e
  end.

Fixpoint mapM {A B} (f : A -> Exc B) (xs : list A) : Exc (list B) :=
  match xs with
  | [] => ret []
  | x :: xs' => y <- f x ;; ys <- mapM f xs' ;; ret (y :: ys)
  end.

(** Python truthiness of an optional string ([None] and [""] are falsy). *)
Definition truthy (s : option string) : bool :=
  match s with
  | None => false
  | Some EmptyString => false
  | Some _ => true
  end.

(** ** Python's [int(s)] on a string (base 10) *)

(** Characters [str.strip]/[int] treat as white space (ASCII part). *)
Definition is_space (c : ascii) : bool :=
  let n := nat_of_ascii c in
  ((9 <=? n) && (n <=? 13))%nat || ((28 <=? n) && (n <=? 32))%nat.

Definition is_digit (c : ascii) : bool :=
  let n := nat_of_ascii c in ((48 <=? n) && (n <=? 57))%nat.

Definition digit_val (c : ascii) : Z := Z.of_nat (nat_of_ascii c) - 48.

Fixpoint lstrip (s : string) : string :=
  match s with
  | EmptyString => EmptyString
  | String c s' => if is_space c then lstrip s' else s
  end.

Fixpoint rev_str (s : string) : string :=
  match s with
  | EmptyString => EmptyString
  | String c s' => rev_str s' ++ String c EmptyString
  end.

Definition strip (s : string) : string := rev_str (lstrip (rev_str (lstrip s))).

(** Digits with single underscores between them: [digit ("_"? digit)*];
    [after_us] records that the previous character was an underscore. *)
Fixpoint parse_digits (s : string) (acc : Z) (after_us : bool) : option Z :=
  match s with
  | EmptyString => if after_us then None else Some acc
  | String c s' =>
      if is_digit c then parse_digits s' (acc * 10 + digit_val c) false
      else if Ascii.eqb c "_"%char && negb after_us then parse_digits s' acc true
      else None
  end.

Definition parse_unsigned (s : string) : option Z :=
  match s with
  | String c s' => if is_digit c then parse_digits s' (digit_val c) false else None
  | EmptyString => None
  end.

Definition parse_int (s : string) : option Z :=
  match s with
  | String c s' =>
      if Ascii.eqb c "-"%char then option_map Z.opp (parse_unsigned s')
      else if Ascii.eqb c "+"%char then parse_unsigned s'
      else parse_unsigned s
  | EmptyString => None
  end.

(** [int(s)]: raises [ValueError] when [s] is not an integer literal. *)
Definition py_int (s : string) : Exc Z :=
  match parse_int (strip s) with
  | Some n => Ok n
  | None => Raise ValueError
  end.

(** ** [str.split] on a one-character separator and [str.join] *)

Fixpoint split_go (sep : ascii) (s : string) (cur : string) : list string :=
  match s with
  | EmptyString => [cur]
  | String c s' =>
      if Ascii.eqb c sep then cur :: split_go sep s' EmptyString
      else split_go sep s' (cur ++ String c EmptyString)
  end.

Definition py_split (sep : ascii) (s : string) : list string := split_go sep s EmptyString.

Fixpoint py_join (sep : string) (xs : list string) : string :=
  match xs with
  | [] => EmptyString
  | [x] => x
  | x :: xs' => x ++ sep ++ py_join sep xs'
  end.

(** ** Records *)

(** The raw SPARQL binding, through [get_val]. *)
Record Raw : Type := mkRaw {
  r_workLabel : option string;
  r_authorLabel : option string;
  r_author : option string;
  r_death : option string;
  r_pubYear : option string;
  r_langLabel : option string;
  r_wp : option string;
  r_genres : option string
}.

(** The locals of one loop iteration of [main] before [regions]. *)
Record Canon : Type := mkCanon {
  title : option string;
  author : option string;
  author_qid : option string;
  death_year : option Z;
  pubYear : option string;
  lang : option string;
  wp : option string;
  genres : list string
}.

(** The dict appended to [data]. *)
Record Row : Type := mkRow {
  row_title : option string;
  row_author : option string;
  row_author_qid : option string;
  row_author_death_year : option Z;
  row_publication_year : option string;
  row_language : option string;
  row_wikipedia_page : option string;
  row_genres : string;
  row_regions : string
}.

(** ** Normalization *)

Definition extract_year_from_iso (date_literal : option string) : Exc (option Z) :=
  match date_literal with
  | Some s =>
      if negb (truthy date_literal) then ret None
      else try_except (n <- py_int (substring 0 4 s) ;; ret (Some n))
                      (fun _ => ret None)
  | None => ret None
  end.

Definition nonempty (g : string) : bool :=
  match g with EmptyString => false | _ => true end.

Definition parse_genres (genres_raw : option string) : list string :=
  filter nonempty
    (match genres_raw with
     | Some s => if truthy genres_raw then py_split "|"%char s else []
     | None => []
     end).

Definition normalize (r : Raw) : Exc Canon :=
  death_year <- extract_year_from_iso (r_death r) ;;
  ret {| title := r_workLabel r;
         author := r_authorLabel r;
         author_qid := r_author r;
         death_year := death_year;
         pubYear := r_pubYear r;
         lang := r_langLabel r;
         wp := r_wp r;
         genres := parse_genres (r_genres r) |}.

(** ** Classification *)

Definition eu_cutoff (Y : Z) : Z := Y - 71.
Definition mx_cutoff (Y : Z) : Z := Y - 101.
Definition us_pub_cutoff (Y : Z) : Z := if Y >=? 2025 then 1929 else 1929.

Definition EU70 : string := "EU70".
Definition Mexico100 : string := "Mexico100".
Definition US_pub : string := "US_pub".

Definition classify (Y : Z) (c : Canon) : Exc (list string) :=
  let regions :=
    match death_year c with
    | Some d =>
        ((if d <=? eu_cutoff Y then [EU70] else [])
          ++ (if d <=? mx_cutoff Y then [Mexico100] else []))%list
    | None => []
    end in
  match pubYear c with
  | Some s =>
      if truthy (pubYear c) then
        try_except (n <- py_int s ;;
                    ret (if n <=? us_pub_cutoff Y then (regions ++ [US_pub])%list else regions))
                   (fun _ => ret regions)
      else ret regions
  | None => ret regions
  end.

(** ** The dict appended to [data] *)

(** [sorted(...)] on strings: insertion sort by code point order. *)
Fixpoint insert_sorted (x : string) (xs : list string) : list string :=
  match xs with
  | [] => [x]
  | y :: ys =>
      match String.compare x y with
      | Gt => y :: insert_sorted x ys
      | _ => x :: xs
      end
  end.

Definition py_sorted (xs : list string) : list string := fold_right insert_sorted [] xs.

(** [",".join(sorted(set(regions))) if regions else ""]; the iteration
    order of the set does not matter once sorted. *)
Definition regions_str (regions : list string) : string :=
  match regions with
  | [] => ""
  | _ => py_join "," (py_sorted (nodup string_dec regions))
  end.

(** [",".join(genres) if genres else ""] *)
Definition genres_str (genres : list string) : string :=
  match genres with
  | [] => ""
  | _ => py_join "," genres
  end.

(** One iteration of the loop of [main]: normalization, then [regions]. *)
Definition process (Y : Z) (r : Raw) : Exc (Canon * list string) :=
  c <- normalize r ;;
  regions <- classify Y c ;;
  ret (c, regions).

Definition row_of (cr : Canon * list string) : Row :=
  let (c, regions) := cr in
  {| row_title := title c;
     row_author := author c;
     row_author_qid := author_qid c;
     row_author_death_year := death_year c;
     row_publication_year := pubYear c;
     row_language := lang c;
     row_wikipedia_page := wp c;
     row_genres := genres_str (genres c);
     row_regions := regions_str regions |}.

(** ** The DataFrame stage *)

(** [pd.DataFrame(data)]: the columns are the keys of the dicts, so a
    frame built from no dict has no column at all. *)
Record Frame : Type := mkFrame {
  columns : list string;
  frame_rows : list Row
}.

Definition row_keys : list string :=
  ["title"; "author"; "author_qid"; "author_death_year"; "publication_year";
   "language"; "wikipedia_page"; "genres"; "regions"].

Definition DataFrame (data : list Row) : Frame :=
  {| columns := match data with [] => [] | _ => row_keys end;
     frame_rows := data |}.

(** [df[k]]: raises [KeyError] on a missing column. *)
Definition get_column (df : Frame) (k : string) : Exc (list Row) :=
  if existsb (String.eqb k) (columns df) then Ok (frame_rows df) else Raise (KeyError k).

(** [Series.str.contains(pat, na=False)] for a pattern without regular
    expression metacharacters: substring search. *)
Fixpoint str_contains (pat s : string) : bool :=
  prefix pat s ||
  match s with
  | EmptyString => false
  | String _ s' => str_contains pat s'
  end.

(** [df[df["regions"].str.contains(tag, na=False)].copy()] *)
Definition select_region (df : Frame) (tag : string) : Exc (list Row) :=
  col <- get_column df "regions" ;;
  ret (filter (fun row => str_contains tag (row_regions row)) col).

Definition Key : Type := (option string * option string)%type.

Definition opt_eqb (a b : option string) : bool :=
  match a, b with
  | Some x, Some y => String.eqb x y
  | None, None => true
  | _, _ => false
  end.

Definition key_eqb (k1 k2 : Key) : bool :=
  opt_eqb (fst k1) (fst k2) && opt_eqb (snd k1) (snd k2).

(** Exported rows of the global file: the record and its [region] column. *)
Definition key (x : Row * string) : Key := (row_title (fst x), row_author (fst x)).

(** [drop_duplicates(subset=["title", "author"])], keeping the first row. *)
Fixpoint drop_duplicates (seen : list Key) (xs : list (Row * string)) : list (Row * string) :=
  match xs with
  | [] => []
  | x :: xs' =>
      if existsb (key_eqb (key x)) seen then drop_duplicates seen xs'
      else x :: drop_duplicates (key x :: seen) xs'
  end.

(** [df.assign(region=tag)] *)
Definition assign (rows : list Row) (tag : string) : list (Row * string) :=
  map (fun row => (row, tag)) rows.

Inductive AllOut : Type :=
| AllTagged (rows : list (Row * string))
| AllFallback (rows : list Row).

Record Outputs : Type := mkOutputs {
  out_eu : list Row;
  out_mx : list Row;
  out_us : list Row;
  out_all : AllOut
}.

Definition is_empty {A} (xs : list A) : bool :=
  match xs with [] => true | _ => false end.

Definition partition (data : list Row) : Exc Outputs :=
  let df := DataFrame data in
  df_eu <- select_region df EU70 ;;
  df_mx <- select_region df Mexico100 ;;
  df_us <- select_region df US_pub ;;
  ret {| out_eu := df_eu; out_mx := df_mx; out_us := df_us;
         out_all :=
           if negb (is_empty df_eu) || negb (is_empty df_mx) || negb (is_empty df_us)
           then AllTagged (drop_duplicates []
                  (assign df_eu EU70 ++ assign df_mx Mexico100 ++ assign df_us US_pub)%list)
           else AllFallback (frame_rows df) |}.

(** [main] from the query result to the four exported sets. *)
Definition main_core (Y : Z) (rows : list Raw) : Exc Outputs :=
  data <- mapM (process Y) rows ;;
  partition (map row_of data).

(** Selection of an output set by its tag. *)
Definition subset_for (o : Outputs) (tag : string) : list Row :=
  if String.eqb tag EU70 then out_eu o
  else if String.eqb tag Mexico100 then out_mx o
  else out_us o.

Definition jurisdictions : list string := [EU70; Mexico100; US_pub].

(** The tags listed in an exported [regions] column. *)
Definition row_tags (row : Row) : list string := py_split ","%char (row_regions row).

(** The first tag of [tags] in the priority order EU70, Mexico100, US_pub. *)
Definition first_priority (tags : list string) : option string :=
  find (fun t => existsb (String.eqb t) tags) jurisdictions.

(** ** Auxiliary definitions for the proofs and concrete inputs *)

(** The tags a death year gives, in the order they are appended. *)
Definition death_tags (Y : Z) (dy : option Z) : list string :=
  match dy with
  | Some d =>
      ((if d <=? eu_cutoff Y then [EU70] else [])
         ++ (if d <=? mx_cutoff Y then [Mexico100] else []))%list
  | None => []
  end.

(** Whether the publication-year literal passes the US rule. *)
Definition us_flag (Y : Z) (py : option string) : bool :=
  match py with
  | Some s =>
      match py_int s with
      | Ok n => n <=? us_pub_cutoff Y
      | Raise _ => false
      end
  | None => false
  end.

Definition canon_a : Canon :=
  mkCanon (Some "Les Trois Mousquetaires") (Some "Alexandre Dumas") (Some "Q38337")
          (Some 1870) (Some "1844") (Some "French") None ["adventure fiction"].
Definition canon_b : Canon :=
  mkCanon (Some "Other") None None (Some 1870) (Some "1844") (Some "English") (Some "wp") [].

(** The value [extract_year_from_iso] returns. *)
Definition death_of (d : option string) : option Z :=
  match d with
  | Some s =>
      if truthy d then
        match py_int (substring 0 4 s) with Ok n => Some n | Raise _ => None end
      else None
  | None => None
  end.

(** The value [normalize] returns. *)
Definition canon_of (r : Raw) : Canon :=
  {| title := r_workLabel r; author := r_authorLabel r; author_qid := r_author r;
     death_year := death_of (r_death r); pubYear := r_pubYear r;
     lang := r_langLabel r; wp := r_wp r; genres := parse_genres (r_genres r) |}.

(** Whether a string contains a character. *)
Fixpoint has_char (a : ascii) (s : string) : bool :=
  match s with
  | EmptyString => false
  | String c s' => Ascii.eqb c a || has_char a s'
  end.

Definition raw_bad_pub : Raw :=
  {| r_workLabel := Some "Work"; r_authorLabel := Some "Author"; r_author := None;
     r_death := None; r_pubYear := Some "abc"; r_langLabel := None; r_wp := None;
     r_genres := None |}.

Definition raw_dup_genres : Raw :=
  {| r_workLabel := Some "Work"; r_authorLabel := Some "Author"; r_author := None;
     r_death := None; r_pubYear := None; r_langLabel := None; r_wp := None;
     r_genres := Some "romance|romance" |}.

Definition raw_bad_years : Raw :=
  {| r_workLabel := Some "Work"; r_authorLabel := Some "Author"; r_author := None;
     r_death := Some "c. 1890"; r_pubYear := Some "19x5"; r_langLabel := None; r_wp := None;
     r_genres := None |}.

(** The [regions] list [classify] returns for a raw record. *)
Definition tags_of (Y : Z) (r : Raw) : list string :=
  (death_tags Y (death_of (r_death r)) ++ (if us_flag Y (r_pubYear r) then [US_pub] else []))%list.

Definition row_of_raw (Y : Z) (r : Raw) : Row := row_of (canon_of r, tags_of Y r).

Definition key_of_raw (r : Raw) : Key := (r_workLabel r, r_authorLabel r).

Definition has_tag (Y : Z) (T : string) (r : Raw) : bool := existsb (String.eqb T) (tags_of Y r).

(** The rows [select_region] keeps from a non-empty frame. *)
Definition sel (T : string) (data : list Row) : list Row :=
  filter (fun row => str_contains T (row_regions row)) data.

Definition hd_list {A} (l : list A) : list A :=
  match l with [] => [] | x :: _ => [x] end.

Definition raw_multi : Raw :=
  {| r_workLabel := Some "Le Tour du monde en quatre-vingts jours";
     r_authorLabel := Some "Jules Verne"; r_author := Some "Q33977";
     r_death := Some "1905-03-24T00:00:00Z"; r_pubYear := Some "1872";
     r_langLabel := Some "French"; r_wp := None; r_genres := Some "adventure fiction" |}.

Definition out_multi : Outputs :=
  Eval vm_compute in
    match main_core 2025 [raw_multi] with
    | Ok o => o
    | Raise _ => mkOutputs [] [] [] (AllFallback [])
    end.

Definition all_multi : list (Row * string) :=
  match out_all out_multi with AllTagged rs => rs | AllFallback _ => [] end.

Definition raw_us_first : Raw :=
  {| r_workLabel := Some "Work"; r_authorLabel := Some "Author"; r_author := Some "Q1";
     r_death := None; r_pubYear := Some "1900"; r_langLabel := Some "French";
     r_wp := None; r_genres := None |}.

Definition raw_eu_second : Raw :=
  {| r_workLabel := Some "Work"; r_authorLabel := Some "Author"; r_author := Some "Q1";
     r_death := Some "1900-01-01T00:00:00Z"; r_pubYear := None; r_langLabel := Some "English";
     r_wp := None; r_genres := None |}.

(** ** Configuration and SPARQL bindings *)

(** The values [yaml.safe_load] builds that the model covers: [None],
    booleans, integers, strings, lists and mappings with string keys
    (floats, dates and other YAML scalars are outside the model). *)
Set Warnings "-register-all".
Inductive yaml : Type :=
| YNone
| YBool (b : bool)
| YInt (n : Z)
| YStr (s : string)
| YList (xs : list yaml)
| YMap (kvs : list (string * yaml)).

(** Python errors raised while computing the current year. *)
Inductive pyerr : Type :=
| AttributeError
| TypeError
| ValueErr.

(** [d.get(k)] on a dict built from the pairs [kvs] in order: a repeated
    key keeps its last value (PyYAML and [json] assign in order). *)
Definition dict_get {V} (k : string) (kvs : list (string * V)) : option V :=
  fold_left (fun acc kv => if String.eqb (fst kv) k then Some (snd kv) else acc) kvs None.

(** [load_config]: the parsed file when it exists, [{}] otherwise;
    [file] is [None] when [os.path.exists(path)] is false. *)
Definition load_config (file : option yaml) : yaml :=
  match file with
  | Some doc => doc
  | None => YMap []
  end.

(** [int(v)] on a loaded YAML value. *)
Definition yaml_int (v : yaml) : Z + pyerr :=
  match v with
  | YInt n => inl n
  | YBool b => inl (if b then 1 else 0)
  | YStr s => match py_int s with Ok n => inl n | Raise _ => inr ValueErr end
  | _ => inr TypeError
  end.

(** [Y = int(cfg.get("current_year", datetime.utcnow().year))], with
    [now] the current UTC year. *)
Definition current_year (cfg : yaml) (now : Z) : Z + pyerr :=
  match cfg with
  | YMap kvs =>
      match dict_get "current_year" kvs with
      | Some v => yaml_int v
      | None => inl now
      end
  | _ => inr AttributeError
  end.

(** A SPARQL result row: variable name to its binding, a dict such as
    [{"type": "literal", "value": "1900"}]. *)
Definition Binding : Type := list (string * list (string * string)).

(** [get_val(row, key)]: [v.get("value") if v else None]; an empty
    binding dict is falsy. *)
Definition get_val (row : Binding) (k : string) : option string :=
  match dict_get k row with
  | Some v => match v with [] => None | _ => dict_get "value" v end
  | None => None
  end.

(** The raw record [main] reads from one row. *)
Definition raw_of_binding (row : Binding) : Raw :=
  {| r_workLabel := get_val row "workLabel";
     r_authorLabel := get_val row "authorLabel";
     r_author := get_val row "author";
     r_death := get_val row "death";
     r_pubYear := get_val row "pubYear";
     r_langLabel := get_val row "langLabel";
     r_wp := get_val row "wp";
     r_genres := get_val row "genres" |}.

(** A decimal digit as a character, and a year as four digits. *)
Definition digit_char (d : Z) : ascii := ascii_of_nat (Z.to_nat (48 + d)).

Definition pad4 (y : Z) : string :=
  String (digit_char (y / 1000))
    (String (digit_char (y / 100 mod 10))
      (String (digit_char (y / 10 mod 10))
        (String (digit_char (y mod 10)) EmptyString))).

(** Checks of [int()] on all four-digit strings, for the year lemmas. *)
Definition year_check (n : nat) : bool :=
  let y := Z.of_nat n in
  match py_int (pad4 y), py_int (String "-" (substring 0 3 (pad4 y))) with
  | Ok a, Ok b => Z.eqb a y && Z.eqb b (- (y / 10))
  | _, _ => false
  end.

Definition raw_plain : Raw :=
  {| r_workLabel := Some "Work"; r_authorLabel := Some "Author"; r_author := None;
     r_death := Some "1800-01-01T00:00:00Z"; r_pubYear := Some "1950"; r_langLabel := None;
     r_wp := None; r_genres := Some "romance|adventure" |}.

Definition raw_untagged : Raw :=
  {| r_workLabel := Some "Recent"; r_authorLabel := Some "Someone"; r_author := None;
     r_death := Some "1990-05-01T00:00:00Z"; r_pubYear := Some "1990"; r_langLabel := None;
     r_wp := None; r_genres := None |}.

(** A result row with a title and an author but a [death] binding
    without [value] and an empty [pubYear] binding. *)
Definition binding_no_dates : Binding :=
  [("workLabel", [("type", "literal"); ("value", "Work")]);
   ("authorLabel", [("type", "literal"); ("value", "Author")]);
   ("death", [("type", "uri")]); ("pubYear", [])].

Definition out_with_binding : Outputs :=
  Eval vm_compute in
    match main_core 2025 [raw_multi; raw_of_binding binding_no_dates] with
    | Ok o => o
    | Raise _ => out_multi
    end.

(** ** Concrete checks *)

Example py_int_ex1 : py_int " 1_900 " = Ok 1900. Proof. reflexivity. Qed.
Example py_int_ex2 : py_int "19x5" = Raise ValueError. Proof. reflexivity. Qed.
Example py_int_ex3 : py_int "-0500" = Ok (-500). Proof. reflexivity. Qed.
Example extract_ex : extract_year_from_iso (Some "1950-03-01T00:00:00Z") = Ok (Some 1950).
Proof. reflexivity. Qed.
Example genres_ex : parse_genres (Some "romance|adventure|") = ["romance"; "adventure"].
Proof. reflexivity. Qed.
Example regions_ex : regions_str [US_pub; EU70; Mexico100] = "EU70,Mexico100,US_pub".
Proof. reflexivity. Qed.

(** ** Classification lemmas *)

Lemma py_int_empty : py_int "" = Raise ValueError.
Proof. reflexivity. Qed.

Lemma classify_eq (Y : Z) (c : Canon) :
  classify Y c = Ok (death_tags Y (death_year c) ++ (if us_flag Y (pubYear c) then [US_pub] else []))%list.
Proof.
  unfold classify, death_tags, us_flag.
  destruct (pubYear c) as [s|].
  - destruct s as [|ch s'].
    + simpl. rewrite app_nil_r. reflexivity.
    + simpl. destruct (py_int (String ch s')) as [n|e]; simpl.
      * destruct (n <=? us_pub_cutoff Y); [reflexivity|].
        rewrite app_nil_r; reflexivity.
      * rewrite app_nil_r; reflexivity.
  - rewrite app_nil_r. reflexivity.
Qed.

Lemma us_pub_cutoff_const (Y : Z) : us_pub_cutoff Y = 1929.
Proof. unfold us_pub_cutoff. destruct (Y >=? 2025); reflexivity. Qed.

Ltac tag_neq := unfold EU70, Mexico100, US_pub in *; discriminate.

Lemma in_death_tags_EU (Y : Z) (dy : option Z) :
  In EU70 (death_tags Y dy) <-> exists d, dy = Some d /\ d <= Y - 71.
Proof.
  unfold death_tags, eu_cutoff, mx_cutoff. destruct dy as [d|].
  - destruct (Z.leb_spec d (Y - 71)); destruct (Z.leb_spec d (Y - 101));
      simpl; split; intros H'.
    all: try solve [ exists d; split; [reflexivity | lia]
                   | left; reflexivity
                   | destruct H' as [d' [Hd' Hle]]; injection Hd' as <-; lia
                   | destruct H' as [H'|H']; [tag_neq | contradiction]
                   | destruct H' ].
  - simpl. split; [intros []| intros [d [Hd _]]; discriminate].
Qed.

Lemma in_death_tags_MX (Y : Z) (dy : option Z) :
  In Mexico100 (death_tags Y dy) <-> exists d, dy = Some d /\ d <= Y - 101.
Proof.
  unfold death_tags, eu_cutoff, mx_cutoff. destruct dy as [d|].
  - destruct (Z.leb_spec d (Y - 71)); destruct (Z.leb_spec d (Y - 101));
      simpl; split; intros H'.
    all: try solve [ exists d; split; [reflexivity | lia]
                   | right; left; reflexivity
                   | left; reflexivity
                   | destruct H' as [d' [Hd' Hle]]; injection Hd' as <-; lia
                   | destruct H' as [H'|[H'|H']]; [tag_neq | tag_neq | contradiction]
                   | destruct H' as [H'|H']; [tag_neq | contradiction]
                   | destruct H' ].
  - simpl. split; [intros []| intros [d [Hd _]]; discriminate].
Qed.

Lemma US_not_in_death_tags (Y : Z) (dy : option Z) : ~ In US_pub (death_tags Y dy).
Proof.
  unfold death_tags. destruct dy as [d|]; [|intros []].
  destruct (d <=? eu_cutoff Y); destruct (d <=? mx_cutoff Y); simpl;
    intros H; repeat destruct H as [H|H]; try tag_neq; contradiction.
Qed.

Lemma EU_neq_US : EU70 <> US_pub. Proof. tag_neq. Qed.
Lemma MX_neq_US : Mexico100 <> US_pub. Proof. tag_neq. Qed.
Lemma EU_neq_MX : EU70 <> Mexico100. Proof. tag_neq. Qed.

Lemma in_tags_app (x : string) (l : list string) (b : bool) :
  In x (l ++ (if b then [US_pub] else []))%list <-> In x l \/ (b = true /\ x = US_pub).
Proof.
  rewrite in_app_iff. destruct b; simpl; intuition (subst; auto; discriminate).
Qed.

Lemma EU_in_tags (Y : Z) (c : Canon) (b : bool) :
  In EU70 (death_tags Y (death_year c) ++ (if b then [US_pub] else []))%list
  <-> In EU70 (death_tags Y (death_year c)).
Proof.
  rewrite in_tags_app. pose proof EU_neq_US. intuition.
Qed.

Lemma MX_in_tags (Y : Z) (c : Canon) (b : bool) :
  In Mexico100 (death_tags Y (death_year c) ++ (if b then [US_pub] else []))%list
  <-> In Mexico100 (death_tags Y (death_year c)).
Proof.
  rewrite in_tags_app. pose proof MX_neq_US. intuition.
Qed.

Lemma US_in_tags (Y : Z) (c : Canon) (b : bool) :
  In US_pub (death_tags Y (death_year c) ++ (if b then [US_pub] else []))%list
  <-> b = true.
Proof.
  rewrite in_tags_app. pose proof (US_not_in_death_tags Y (death_year c)). intuition.
Qed.

Lemma us_flag_spec (Y : Z) (py : option string) :
  us_flag Y py = true <-> exists s n, py = Some s /\ py_int s = Ok n /\ n <= 1929.
Proof.
  unfold us_flag. rewrite us_pub_cutoff_const.
  destruct py as [s|].
  - destruct (py_int s) as [n|e] eqn:E.
    + rewrite Z.leb_le. split.
      * intros H. exists s, n. auto.
      * intros [s' [n' [Hs [Hn Hle]]]]. injection Hs as <-.
        rewrite E in Hn. injection Hn as <-. exact Hle.
    + split; [discriminate|].
      intros [s' [n' [Hs [Hn _]]]]. injection Hs as <-. congruence.
  - split; [discriminate|]. intros [s' [n' [Hs _]]]. discriminate.
Qed.

(** ** Claims on the classifier *)

(** C1: a record is tagged [EU70] iff its author death year is present and
    at most [Y - 71], and [Mexico100] iff it is present and at most
    [Y - 101]; hence every [Mexico100] record is also [EU70]. *)
Theorem classify_death_year_rules (Y : Z) (c : Canon) :
  exists l, classify Y c = Ok l /\
    (In EU70 l <-> exists d, death_year c = Some d /\ d <= Y - 71) /\
    (In Mexico100 l <-> exists d, death_year c = Some d /\ d <= Y - 101) /\
    (In Mexico100 l -> In EU70 l).
Proof.
  eexists. split; [apply classify_eq|].
  rewrite EU_in_tags, MX_in_tags, in_death_tags_EU, in_death_tags_MX.
  split; [tauto|]. split; [tauto|].
  intros [d [Hd Hle]]. exists d. split; [exact Hd | lia].
Qed.

(** C2: a record is tagged [US_pub] iff its publication-year literal is
    present, [int()] parses it, and the integer is at most 1929; the
    cutoff 1929 does not depend on the current year. *)
Theorem classify_us_pub_rule (Y : Z) (c : Canon) :
  exists l, classify Y c = Ok l /\
    (In US_pub l <-> exists s n, pubYear c = Some s /\ py_int s = Ok n /\ n <= 1929) /\
    us_pub_cutoff Y = 1929.
Proof.
  eexists. split; [apply classify_eq|].
  rewrite US_in_tags, us_flag_spec. split; [tauto|].
  apply us_pub_cutoff_const.
Qed.

(** C10: the tags of a record depend only on its author death year and its
    publication-year literal, not on title, author, identifier, language,
    Wikipedia page or genres. *)
Theorem classify_noninterference (Y : Z) (c1 c2 : Canon) :
  death_year c1 = death_year c2 -> pubYear c1 = pubYear c2 ->
  classify Y c1 = classify Y c2.
Proof.
  intros Hd Hp. rewrite !classify_eq, Hd, Hp. reflexivity.
Qed.

Lemma classify_noninterference_witness :
  death_year canon_a = death_year canon_b /\ pubYear canon_a = pubYear canon_b /\
  classify 2025 canon_a = classify 2025 canon_b.
Proof.
  split; [reflexivity|]. split; [reflexivity|].
  apply classify_noninterference; reflexivity.
Defined.

(** ** Normalization lemmas *)

Lemma extract_year_from_iso_eq (d : option string) :
  extract_year_from_iso d = Ok (death_of d).
Proof.
  unfold extract_year_from_iso, death_of.
  destruct d as [s|]; [|reflexivity].
  destruct (truthy (Some s)); simpl; [|reflexivity].
  destruct (py_int (substring 0 4 s)); reflexivity.
Qed.

Lemma normalize_eq (r : Raw) : normalize r = Ok (canon_of r).
Proof. unfold normalize. rewrite extract_year_from_iso_eq. reflexivity. Qed.

Lemma process_eq (Y : Z) (r : Raw) :
  process Y r = Ok (canon_of r,
                    death_tags Y (death_of (r_death r))
                      ++ (if us_flag Y (r_pubYear r) then [US_pub] else []))%list.
Proof. unfold process. rewrite normalize_eq. simpl. rewrite classify_eq. reflexivity. Qed.

(** A publication-year literal that [int()] rejects fails the [US_pub]
    rule. *)
Lemma pub_failure_no_us (Y : Z) (r : Raw) (s : string) (e : exn) :
  r_pubYear r = Some s -> py_int s = Raise e -> us_flag Y (r_pubYear r) = false.
Proof. intros Hs He. unfold us_flag. rewrite Hs, He. reflexivity. Qed.

Lemma parse_genres_eq (g : option string) :
  parse_genres g = filter nonempty (match g with Some s => py_split "|"%char s | None => [] end).
Proof. unfold parse_genres. destruct g as [[|ch s]|]; reflexivity. Qed.

Lemma genres_str_eq (gs : list string) : genres_str gs = py_join "," gs.
Proof. destruct gs; reflexivity. Qed.

Lemma append_assoc_str (s1 s2 s3 : string) : s1 ++ s2 ++ s3 = (s1 ++ s2) ++ s3.
Proof. induction s1 as [|c s1 IH]; simpl; [reflexivity | now rewrite IH]. Qed.

Lemma has_char_app (a : ascii) (s1 s2 : string) :
  has_char a (s1 ++ s2) = has_char a s1 || has_char a s2.
Proof. induction s1 as [|c s1 IH]; simpl; [reflexivity | now rewrite IH, orb_assoc]. Qed.

Lemma split_go_nonempty (sep : ascii) (s cur : string) : split_go sep s cur <> [].
Proof.
  revert cur. induction s as [|c s IH]; intros cur; simpl; [discriminate|].
  destruct (Ascii.eqb c sep); [discriminate | apply IH].
Qed.

Lemma split_go_join (sep : ascii) (s cur : string) :
  py_join (String sep EmptyString) (split_go sep s cur) = cur ++ s.
Proof.
  revert cur. induction s as [|c s IH]; intros cur; simpl.
  - induction cur as [|a cur IHc]; simpl; [reflexivity | now rewrite <- IHc].
  - destruct (Ascii.eqb c sep) eqn:E.
    + apply Ascii.eqb_eq in E. subst c.
      pose proof (split_go_nonempty sep s EmptyString) as Hne.
      destruct (split_go sep s EmptyString) as [|x xs] eqn:Hs; [contradiction|].
      change (cur ++ String sep EmptyString ++ py_join (String sep EmptyString) (x :: xs)
              = cur ++ String sep s).
      rewrite <- Hs, IH. reflexivity.
    + rewrite IH, <- append_assoc_str. reflexivity.
Qed.

Lemma split_go_no_sep (sep : ascii) (s cur : string) :
  has_char sep cur = false ->
  Forall (fun g => has_char sep g = false) (split_go sep s cur).
Proof.
  revert cur. induction s as [|c s IH]; intros cur Hcur; simpl.
  - constructor; [exact Hcur | constructor].
  - destruct (Ascii.eqb c sep) eqn:E.
    + constructor; [exact Hcur | apply IH; reflexivity].
    + apply IH. rewrite has_char_app, Hcur. simpl. rewrite E. reflexivity.
Qed.

(** [py_split] cuts at every separator: joining the pieces back gives the
    string, and no piece contains the separator. *)
Lemma py_split_join (sep : ascii) (s : string) :
  py_join (String sep EmptyString) (py_split sep s) = s /\
  Forall (fun g => has_char sep g = false) (py_split sep s).
Proof.
  split; [apply split_go_join | apply split_go_no_sep; reflexivity].
Qed.

(** ** Claims on normalization *)

(** C6 (as the code has it): the [publication_year] field keeps the raw
    publication-year literal unchanged, as a string or absent; it is never
    parsed there. A literal that does not parse only means no [US_pub]
    tag: the tags are then exactly those of the death year. *)
Theorem normalize_keeps_pub_literal (Y : Z) (r : Raw) :
  exists c l, process Y r = Ok (c, l) /\
    pubYear c = r_pubYear r /\
    row_publication_year (row_of (c, l)) = r_pubYear r /\
    (forall s e, r_pubYear r = Some s -> py_int s = Raise e ->
       l = death_tags Y (death_year c) /\ ~ In US_pub l).
Proof.
  do 2 eexists. split; [apply process_eq|]. split; [reflexivity|].
  split; [reflexivity|]. intros s e Hs He.
  rewrite (pub_failure_no_us Y r s e Hs He), app_nil_r.
  split; [reflexivity | apply US_not_in_death_tags].
Qed.

(** C6 fails: the unparsable literal "abc" is kept as the field value,
    it is not made absent. *)
Lemma normalize_pub_literal_counterexample :
  exists c l, process 2025 raw_bad_pub = Ok (c, l) /\
    pubYear c = Some "abc" /\ row_publication_year (row_of (c, l)) = Some "abc" /\
    py_int "abc" = Raise ValueError.
Proof. do 2 eexists. split; [reflexivity|]. repeat split. Qed.

(** C7 (as the code has it): [genres] is the list of the non-empty
    ['|']-separated pieces of the raw string, in order and with their
    duplicates; absent input gives no genre; the exported field joins the
    list with [","] (the empty string for no genre). *)
Theorem normalize_genres_field (Y : Z) (r : Raw) :
  exists c l, process Y r = Ok (c, l) /\
    genres c = filter nonempty (match r_genres r with
                                | Some s => py_split "|"%char s
                                | None => [] end) /\
    row_genres (row_of (c, l)) = py_join "," (genres c) /\
    parse_genres (Some "romance|adventure|") = ["romance"; "adventure"] /\
    genres_str (parse_genres (Some "romance|adventure|")) = "romance,adventure".
Proof.
  do 2 eexists. split; [apply process_eq|].
  split; [apply parse_genres_eq|]. split; [apply genres_str_eq|].
  split; reflexivity.
Qed.

(** C7 fails: a repeated genre is kept twice. *)
Lemma normalize_genres_dup_counterexample :
  exists c l, process 2025 raw_dup_genres = Ok (c, l) /\
    genres c = ["romance"; "romance"] /\ ~ NoDup (genres c) /\
    row_genres (row_of (c, l)) = "romance,romance".
Proof.
  do 2 eexists. split; [reflexivity|]. split; [reflexivity|]. split; [|reflexivity].
  intros H. inversion H as [|x xs Hx Hnd]. apply Hx. left. reflexivity.
Qed.

(** C9 (as the code has it): normalization and classification never raise;
    an absent, empty or unparsable death date gives an absent death year;
    an absent or empty genre string gives no genre; the publication-year
    literal is kept as it is, and an unparsable one only fails the
    [US_pub] rule: the tags are then exactly those of the death year. *)
Theorem process_total (Y : Z) (r : Raw) :
  exists c l, process Y r = Ok (c, l) /\
    (death_year c = None <->
       truthy (r_death r) = false \/
       exists s e, r_death r = Some s /\ py_int (substring 0 4 s) = Raise e) /\
    (forall n, death_year c = Some n <->
       exists s, r_death r = Some s /\ truthy (r_death r) = true /\
                 py_int (substring 0 4 s) = Ok n) /\
    (truthy (r_genres r) = false -> genres c = []) /\
    pubYear c = r_pubYear r /\
    (forall s e, r_pubYear r = Some s -> py_int s = Raise e ->
       l = death_tags Y (death_year c) /\ ~ In US_pub l).
Proof.
  do 2 eexists. split; [apply process_eq|]. simpl.
  split; [|split; [|split; [|split]]].
  - unfold death_of. destruct (r_death r) as [[|ch s]|]; simpl.
    + split; [intros _; left; reflexivity | reflexivity].
    + destruct (py_int _) as [n|e] eqn:E.
      * split; [intros Hc; discriminate Hc|].
        intros [H|[s' [e [Hs He]]]]; [discriminate H|].
        injection Hs as <-. simpl in *; congruence.
      * split; [intros _; right; exists (String ch s), e; auto | reflexivity].
    + split; [intros _; left; reflexivity | reflexivity].
  - intros n. unfold death_of. destruct (r_death r) as [[|ch s]|]; simpl.
    + split; [intros Hc; discriminate Hc|].
      intros [s' [Hs [Ht _]]]. discriminate Ht.
    + destruct (py_int _) as [m|e] eqn:E.
      * split.
        -- intros H. injection H as <-. exists (String ch s). auto.
        -- intros [s' [Hs [_ Hn]]]. injection Hs as <-. simpl in *; congruence.
      * split; [intros Hc; discriminate Hc|].
        intros [s' [Hs [_ Hn]]]. injection Hs as <-. simpl in *; congruence.
    + split; [intros Hc; discriminate Hc|]. intros [s' [Hs _]]. discriminate Hs.
  - unfold parse_genres. destruct (r_genres r) as [s|]; simpl; [|reflexivity].
    intros H. rewrite H. reflexivity.
  - reflexivity.
  - intros s e Hs He. rewrite (pub_failure_no_us Y r s e Hs He), app_nil_r.
    split; [reflexivity | apply US_not_in_death_tags].
Qed.

(** C9 fails: of the two parse failures of this record, the death date
    becomes absent but the publication-year literal "19x5" stays in the
    record. *)
Lemma process_pub_failure_counterexample :
  exists c l, process 2025 raw_bad_years = Ok (c, l) /\
    py_int "19x5" = Raise ValueError /\
    death_year c = None /\ pubYear c = Some "19x5" /\
    row_publication_year (row_of (c, l)) = Some "19x5".
Proof. do 2 eexists. split; [reflexivity|]. repeat split. Qed.

(** ** Partition lemmas *)

Lemma mapM_process (Y : Z) (raws : list Raw) :
  mapM (process Y) raws = Ok (map (fun r => (canon_of r, tags_of Y r)) raws).
Proof.
  induction raws as [|r raws IH]; [reflexivity|].
  simpl. rewrite process_eq. simpl. rewrite IH. reflexivity.
Qed.

Lemma main_core_eq (Y : Z) (raws : list Raw) :
  main_core Y raws = partition (map (row_of_raw Y) raws).
Proof.
  unfold main_core. rewrite mapM_process. simpl. rewrite map_map. reflexivity.
Qed.

Lemma partition_nonempty (data : list Row) :
  data <> [] ->
  partition data =
  Ok {| out_eu := sel EU70 data; out_mx := sel Mexico100 data; out_us := sel US_pub data;
        out_all :=
          if negb (is_empty (sel EU70 data)) || negb (is_empty (sel Mexico100 data))
             || negb (is_empty (sel US_pub data))
          then AllTagged (drop_duplicates []
                 (assign (sel EU70 data) EU70 ++ assign (sel Mexico100 data) Mexico100
                  ++ assign (sel US_pub data) US_pub)%list)
          else AllFallback data |}.
Proof.
  intros H. destruct data as [|row data]; [contradiction|]. reflexivity.
Qed.

Lemma partition_empty : partition [] = Raise (KeyError "regions").
Proof. reflexivity. Qed.

(** The [regions] string of a classified record contains a tag exactly
    when the tag was given, and lists exactly the given tags. *)
Lemma regions_str_tags (Y : Z) (dy : option Z) (b : bool) (T : string) :
  In T jurisdictions ->
  let l := (death_tags Y dy ++ (if b then [US_pub] else []))%list in
  str_contains T (regions_str l) = existsb (String.eqb T) l /\
  existsb (String.eqb T) (py_split ","%char (regions_str l)) = existsb (String.eqb T) l.
Proof.
  intros HT. unfold death_tags.
  destruct dy as [d|];
    [destruct (d <=? eu_cutoff Y); destruct (d <=? mx_cutoff Y)|];
    destruct b; destruct HT as [<-|[<-|[<-|[]]]]; split; reflexivity.
Qed.

Lemma contains_has_tag (Y : Z) (T : string) (r : Raw) :
  In T jurisdictions ->
  str_contains T (row_regions (row_of_raw Y r)) = has_tag Y T r.
Proof. intros HT. apply (regions_str_tags Y _ _ T HT). Qed.

Lemma row_tags_has_tag (Y : Z) (T : string) (r : Raw) :
  In T jurisdictions ->
  existsb (String.eqb T) (row_tags (row_of_raw Y r)) = has_tag Y T r.
Proof. intros HT. apply (regions_str_tags Y _ _ T HT). Qed.

Lemma sel_map (Y : Z) (T : string) (raws : list Raw) :
  In T jurisdictions ->
  sel T (map (row_of_raw Y) raws) = map (row_of_raw Y) (filter (has_tag Y T) raws).
Proof.
  intros HT. induction raws as [|r raws IH]; [reflexivity|].
  unfold sel in *. cbn [map filter]. rewrite contains_has_tag by exact HT.
  destruct (has_tag Y T r); cbn [map filter]; rewrite IH; reflexivity.
Qed.

(** Keys *)

Lemma opt_eqb_eq (a b : option string) : opt_eqb a b = true <-> a = b.
Proof.
  destruct a as [x|], b as [y|]; simpl;
    try (split; [discriminate | intros H; discriminate H]).
  - rewrite String.eqb_eq. split; [intros ->|intros H; injection H]; auto.
  - split; reflexivity.
Qed.

Lemma key_eqb_eq (k1 k2 : Key) : key_eqb k1 k2 = true <-> k1 = k2.
Proof.
  destruct k1 as [a1 b1], k2 as [a2 b2]. unfold key_eqb. simpl.
  rewrite andb_true_iff, !opt_eqb_eq.
  split; [intros [-> ->]; reflexivity | intros H; injection H as -> ->; auto].
Qed.

Lemma key_eqb_refl (k : Key) : key_eqb k k = true.
Proof. apply key_eqb_eq. reflexivity. Qed.

Lemma key_eqb_sym (k1 k2 : Key) : key_eqb k1 k2 = key_eqb k2 k1.
Proof.
  destruct (key_eqb k1 k2) eqn:E; symmetry.
  - apply key_eqb_eq in E. subst. apply key_eqb_refl.
  - destruct (key_eqb k2 k1) eqn:E'; [|reflexivity].
    apply key_eqb_eq in E'. subst. rewrite key_eqb_refl in E. discriminate.
Qed.

(** [drop_duplicates] keeps, for each key, the first row that has it. *)
Lemma drop_duplicates_key (seen : list Key) (xs : list (Row * string)) (k : Key) :
  filter (fun x => key_eqb (key x) k) (drop_duplicates seen xs) =
  if existsb (key_eqb k) seen then [] else hd_list (filter (fun x => key_eqb (key x) k) xs).
Proof.
  revert seen. induction xs as [|x xs IH]; intros seen; simpl.
  - destruct (existsb (key_eqb k) seen); reflexivity.
  - destruct (key_eqb (key x) k) eqn:Ek.
    + apply key_eqb_eq in Ek. subst k.
      destruct (existsb (key_eqb (key x)) seen) eqn:Es.
      * rewrite IH, Es. reflexivity.
      * simpl. rewrite key_eqb_refl, IH. simpl. rewrite key_eqb_refl. reflexivity.
    + destruct (existsb (key_eqb (key x)) seen) eqn:Es.
      * apply IH.
      * simpl. rewrite Ek, IH. simpl. rewrite key_eqb_sym, Ek. reflexivity.
Qed.

Lemma has_tag_In (Y : Z) (T : string) (r : Raw) :
  has_tag Y T r = true <-> In T (tags_of Y r).
Proof.
  unfold has_tag. rewrite existsb_exists. split.
  - intros [x [Hx Heq]]. apply String.eqb_eq in Heq. subst. exact Hx.
  - intros H. exists T. split; [exact H | apply String.eqb_refl].
Qed.

Lemma tags_in_jurisdictions (Y : Z) (r : Raw) (T : string) :
  In T (tags_of Y r) -> In T jurisdictions.
Proof.
  unfold tags_of, death_tags, jurisdictions.
  destruct (death_of (r_death r)) as [d|];
    [destruct (d <=? eu_cutoff Y); destruct (d <=? mx_cutoff Y)|];
    destruct (us_flag Y (r_pubYear r)); simpl; intuition.
Qed.

Lemma has_MX_EU (Y : Z) (r : Raw) :
  has_tag Y Mexico100 r = true -> has_tag Y EU70 r = true.
Proof.
  rewrite !has_tag_In. unfold tags_of.
  change (death_of (r_death r)) with (death_year (canon_of r)).
  rewrite EU_in_tags, MX_in_tags, in_death_tags_EU, in_death_tags_MX.
  intros [d [Hd Hle]]. exists d. split; [exact Hd | lia].
Qed.

Lemma data_contains_tags (Y : Z) (raws : list Raw) (row : Row) (T : string) :
  In row (map (row_of_raw Y) raws) -> In T jurisdictions ->
  str_contains T (row_regions row) = existsb (String.eqb T) (row_tags row).
Proof.
  intros Hrow HT. apply in_map_iff in Hrow. destruct Hrow as [r [<- _]].
  rewrite contains_has_tag, row_tags_has_tag by exact HT. reflexivity.
Qed.

Lemma in_assign (L : list Row) (T : string) (row : Row) (t : string) :
  In (row, t) (assign L T) <-> In row L /\ t = T.
Proof.
  unfold assign. rewrite in_map_iff. split.
  - intros [x [Hx Hin]]. injection Hx as -> ->. auto.
  - intros [Hin ->]. exists row. auto.
Qed.

Lemma filter_key_assign_nil (L : list Row) (T T' : string) (row : Row) :
  filter (fun x => key_eqb (key x) (key (row, T'))) (assign L T) = [] -> ~ In row L.
Proof.
  intros Hnil Hin.
  assert (H : In (row, T) (filter (fun x => key_eqb (key x) (key (row, T'))) (assign L T))).
  { apply filter_In. split; [apply in_assign; auto | apply key_eqb_refl]. }
  rewrite Hnil in H. exact H.
Qed.

Lemma main_core_nonempty (Y : Z) (raws : list Raw) (o : Outputs) :
  main_core Y raws = Ok o -> raws <> [].
Proof. intros H ->. discriminate H. Qed.

Lemma filter_map_row {A B} (f : A -> B) (p : B -> bool) (l : list A) :
  filter p (map f l) = map f (filter (fun x => p (f x)) l).
Proof.
  induction l as [|x l IH]; [reflexivity|]. simpl.
  destruct (p (f x)); simpl; rewrite IH; reflexivity.
Qed.

Lemma filter_comm {A} (p q : A -> bool) (l : list A) :
  filter p (filter q l) = filter q (filter p l).
Proof.
  induction l as [|x l IH]; [reflexivity|]. simpl.
  destruct (q x) eqn:Hq, (p x) eqn:Hp; simpl; rewrite ?Hq, ?Hp, IH; reflexivity.
Qed.

(** ** Claims on the partition *)

(** C3: with no record at all, [pd.DataFrame(data)] has no column, so
    [df["regions"]] raises [KeyError] before any set is exported; the
    fallback to the full frame is never reached. *)
Theorem main_core_empty_input (Y : Z) : main_core Y [] = Raise (KeyError "regions").
Proof. reflexivity. Qed.

(** C8: selecting the rows of any jurisdiction from the frame built from no
    record raises [KeyError] instead of giving an empty subset. *)
Theorem select_region_empty_frame (T : string) :
  select_region (DataFrame []) T = Raise (KeyError "regions").
Proof. reflexivity. Qed.

(** For a non-empty input each jurisdiction's set holds exactly the
    records with that tag, in input order. *)
Lemma subsets_exact (Y : Z) (raws : list Raw) :
  raws <> [] ->
  exists o, main_core Y raws = Ok o /\
    forall T, In T jurisdictions ->
      subset_for o T = map (row_of_raw Y) (filter (has_tag Y T) raws).
Proof.
  intros Hne. eexists. split.
  - rewrite main_core_eq, partition_nonempty; [reflexivity|].
    destruct raws; [contradiction | discriminate].
  - intros T HT. rewrite <- sel_map by exact HT.
    destruct HT as [<-|[<-|[<-|[]]]]; reflexivity.
Qed.

(** For a non-empty input, the global set is the de-duplicated
    concatenation when some record has a tag, and the whole frame
    otherwise. *)
Lemma all_set_cases (Y : Z) (raws : list Raw) :
  raws <> [] ->
  exists o, main_core Y raws = Ok o /\
    let data := map (row_of_raw Y) raws in
    out_all o =
      if negb (is_empty (sel EU70 data)) || negb (is_empty (sel Mexico100 data))
         || negb (is_empty (sel US_pub data))
      then AllTagged (drop_duplicates []
             (assign (sel EU70 data) EU70 ++ assign (sel Mexico100 data) Mexico100
              ++ assign (sel US_pub data) US_pub)%list)
      else AllFallback data.
Proof.
  intros Hne. eexists. split.
  - rewrite main_core_eq, partition_nonempty; [reflexivity|].
    destruct raws; [contradiction | discriminate].
  - reflexivity.
Qed.

Lemma first_priority_eq (tags : list string) :
  first_priority tags =
  if existsb (String.eqb EU70) tags then Some EU70
  else if existsb (String.eqb Mexico100) tags then Some Mexico100
  else if existsb (String.eqb US_pub) tags then Some US_pub
  else None.
Proof. reflexivity. Qed.

(** C5: every row of the global set records, as its [region], the first of
    the record's tags in the order EU70, Mexico100, US_pub. *)
Theorem all_row_tag_first_priority (Y : Z) (raws : list Raw) (o : Outputs)
    (rows : list (Row * string)) (row : Row) (t : string) :
  main_core Y raws = Ok o -> out_all o = AllTagged rows -> In (row, t) rows ->
  first_priority (row_tags row) = Some t.
Proof.
  intros Hmain Hall Hin.
  pose proof (main_core_nonempty _ _ _ Hmain) as Hne.
  destruct (all_set_cases Y raws Hne) as [o' [Hmain' Hall']].
  rewrite Hmain in Hmain'. injection Hmain' as <-.
  set (data := map (row_of_raw Y) raws) in *.
  rewrite Hall in Hall'. cbv zeta in Hall'.
  destruct (negb (is_empty (sel EU70 data)) || negb (is_empty (sel Mexico100 data))
            || negb (is_empty (sel US_pub data))); [|discriminate Hall'].
  injection Hall' as ->.
  set (k := key (row, t)).
  assert (Hk : In (row, t) (filter (fun x => key_eqb (key x) k)
     (drop_duplicates [] (assign (sel EU70 data) EU70 ++ assign (sel Mexico100 data) Mexico100
                          ++ assign (sel US_pub data) US_pub)%list))).
  { apply filter_In. split; [exact Hin | apply key_eqb_refl]. }
  rewrite drop_duplicates_key in Hk. simpl existsb in Hk. cbv iota in Hk.
  rewrite !filter_app in Hk.
  (* [row] is a row of the frame, so its tags are those its [regions] shows *)
  assert (Hc : forall T, In T jurisdictions ->
            In row (sel T data) <-> In row data /\ existsb (String.eqb T) (row_tags row) = true).
  { intros T HT. unfold sel. rewrite filter_In. split.
    - intros [Hd Hs]. split; [exact Hd|]. rewrite <- (data_contains_tags Y raws); auto.
    - intros [Hd Hs]. split; [exact Hd|]. rewrite (data_contains_tags Y raws); auto. }
  assert (HjE : In EU70 jurisdictions) by (left; reflexivity).
  assert (HjM : In Mexico100 jurisdictions) by (right; left; reflexivity).
  assert (HjU : In US_pub jurisdictions) by (right; right; left; reflexivity).
  rewrite first_priority_eq.
  destruct (filter (fun x => key_eqb (key x) k) (assign (sel EU70 data) EU70)) as [|x FE] eqn:HFE.
  - pose proof (filter_key_assign_nil _ _ _ _ HFE) as HnE.
    destruct (filter (fun x => key_eqb (key x) k) (assign (sel Mexico100 data) Mexico100))
      as [|y FM] eqn:HFM.
    + pose proof (filter_key_assign_nil _ _ _ _ HFM) as HnM.
      simpl app in Hk.
      destruct (filter (fun x => key_eqb (key x) k) (assign (sel US_pub data) US_pub))
        as [|z FU] eqn:HFU; [destruct Hk|].
      destruct Hk as [->|[]].
      assert (Hz : In (row, t) ((row, t) :: FU)) by (left; reflexivity).
      rewrite <- HFU, filter_In, in_assign in Hz. destruct Hz as [[HU ->] _].
      apply (Hc US_pub HjU) in HU. destruct HU as [Hd HU].
      destruct (existsb (String.eqb EU70) (row_tags row)) eqn:E1.
      { exfalso. apply HnE, Hc; auto. }
      destruct (existsb (String.eqb Mexico100) (row_tags row)) eqn:E2.
      { exfalso. apply HnM, Hc; auto. }
      rewrite HU. reflexivity.
    + simpl app in Hk. destruct Hk as [->|[]].
      assert (Hy : In (row, t) ((row, t) :: FM)) by (left; reflexivity).
      rewrite <- HFM, filter_In, in_assign in Hy. destruct Hy as [[HM ->] _].
      apply (Hc Mexico100 HjM) in HM. destruct HM as [Hd HM].
      destruct (existsb (String.eqb EU70) (row_tags row)) eqn:E1.
      { exfalso. apply HnE, Hc; auto. }
      rewrite HM. reflexivity.
  - simpl app in Hk. destruct Hk as [->|[]].
    assert (Hx : In (row, t) ((row, t) :: FE)) by (left; reflexivity).
    rewrite <- HFE, filter_In, in_assign in Hx. destruct Hx as [[HE ->] _].
    apply (Hc EU70 HjE) in HE. destruct HE as [_ HE]. rewrite HE. reflexivity.
Qed.

Lemma all_row_tag_first_priority_witness :
  main_core 2025 [raw_multi] = Ok out_multi /\
  out_all out_multi = AllTagged all_multi /\
  In (row_of_raw 2025 raw_multi, EU70) all_multi /\
  first_priority (row_tags (row_of_raw 2025 raw_multi)) = Some EU70.
Proof.
  assert (H1 : main_core 2025 [raw_multi] = Ok out_multi) by reflexivity.
  assert (H2 : out_all out_multi = AllTagged all_multi) by reflexivity.
  assert (H3 : In (row_of_raw 2025 raw_multi, EU70) all_multi) by (left; reflexivity).
  exact (conj H1 (conj H2 (conj H3 (all_row_tag_first_priority _ _ _ _ _ _ H1 H2 H3)))).
Defined.

(** C4 fails: the first record of the pair (tagged US_pub only) is dropped
    and the second one (tagged EU70) is kept, because the EU70 rows come
    first in the concatenation. *)
Lemma all_dedup_input_order_counterexample :
  exists o rows,
    main_core 2025 [raw_us_first; raw_eu_second] = Ok o /\
    out_all o = AllTagged rows /\
    map fst rows = [row_of_raw 2025 raw_eu_second] /\
    row_of_raw 2025 raw_us_first <> row_of_raw 2025 raw_eu_second /\
    tags_of 2025 raw_us_first = [US_pub] /\
    tags_of 2025 raw_eu_second = [EU70; Mexico100].
Proof.
  do 2 eexists. split; [reflexivity|]. split; [reflexivity|].
  split; [reflexivity|]. split; [discriminate|]. split; reflexivity.
Qed.

Lemma filter_key_none (k : Key) (l : list Raw) :
  Forall (fun r => key_of_raw r <> k) l ->
  filter (fun r => key_eqb (key_of_raw r) k) l = [].
Proof.
  induction 1 as [|r l Hr _ IH]; [reflexivity|]. simpl.
  destruct (key_eqb (key_of_raw r) k) eqn:E; [|exact IH].
  apply key_eqb_eq in E. contradiction.
Qed.

Lemma filter_key_sel (Y : Z) (T : string) (k : Key) (raws : list Raw) :
  In T jurisdictions ->
  filter (fun x => key_eqb (key x) k) (assign (sel T (map (row_of_raw Y) raws)) T) =
  map (fun r => (row_of_raw Y r, T))
      (filter (has_tag Y T) (filter (fun r => key_eqb (key_of_raw r) k) raws)).
Proof.
  intros HT. rewrite sel_map by exact HT. unfold assign. rewrite map_map, filter_map_row.
  f_equal. apply filter_comm.
Qed.

Lemma tags_nonempty_has (Y : Z) (r : Raw) :
  tags_of Y r <> [] -> exists T, In T jurisdictions /\ has_tag Y T r = true.
Proof.
  intros Hne. destruct (tags_of Y r) as [|T l] eqn:E; [contradiction|].
  exists T. split.
  - apply (tags_in_jurisdictions Y r). rewrite E. left. reflexivity.
  - apply has_tag_In. rewrite E. left. reflexivity.
Qed.

Lemma tags_nonempty_orb (Y : Z) (r : Raw) :
  tags_of Y r <> [] ->
  has_tag Y EU70 r || has_tag Y Mexico100 r || has_tag Y US_pub r = true.
Proof.
  intros Hne. destruct (tags_nonempty_has Y r Hne) as [T [HT Hh]].
  destruct HT as [<-|[<-|[<-|[]]]]; rewrite Hh; rewrite ?orb_true_r; reflexivity.
Qed.

(** C4 (as the code has it): when exactly two records [a] (earlier) and
    [b] (later) of the input share a (title, author) pair and both have a
    tag, the global set holds exactly one row with that pair: [b]'s row
    when [b] is tagged EU70 and [a] is not, [a]'s row otherwise. The global
    set is the EU70 rows, then the Mexico100 rows, then the US_pub rows,
    with the first row of each pair kept. *)
Theorem all_dedup_pair (Y : Z) (pre mid post : list Raw) (a b : Raw) :
  key_of_raw b = key_of_raw a ->
  Forall (fun r => key_of_raw r <> key_of_raw a) (pre ++ mid ++ post) ->
  tags_of Y a <> [] -> tags_of Y b <> [] ->
  exists o rows t,
    main_core Y (pre ++ a :: mid ++ b :: post) = Ok o /\
    out_all o = AllTagged rows /\
    filter (fun x => key_eqb (key x) (key_of_raw a)) rows =
      [(row_of_raw Y (if has_tag Y EU70 b && negb (has_tag Y EU70 a) then b else a), t)].
Proof.
  intros Hkb Hothers Ha Hb.
  set (raws := (pre ++ a :: mid ++ b :: post)%list).
  set (k := key_of_raw a).
  assert (Hne : raws <> []) by (unfold raws; destruct pre; discriminate).
  destruct (all_set_cases Y raws Hne) as [o [Hm Hall]]. exists o.
  set (data := map (row_of_raw Y) raws) in *.
  assert (Hkr : filter (fun r => key_eqb (key_of_raw r) k) raws = [a; b]).
  { apply Forall_app in Hothers. destruct Hothers as [Hpre Hrest].
    apply Forall_app in Hrest. destruct Hrest as [Hmid Hpost].
    unfold raws. rewrite filter_app. simpl.
    rewrite filter_app. simpl.
    rewrite !filter_key_none by assumption.
    unfold k. rewrite Hkb, key_eqb_refl. reflexivity. }
  (* some jurisdiction set is non-empty: [a]'s row is in it *)
  destruct (tags_nonempty_has Y a Ha) as [Ta [HTa Hha]].
  assert (HinA : In (row_of_raw Y a) (sel Ta data)).
  { unfold data. rewrite sel_map by exact HTa. apply in_map, filter_In.
    split; [unfold raws; apply in_or_app; right; left; reflexivity | exact Hha]. }
  cbv zeta in Hall.
  destruct (negb (is_empty (sel EU70 data)) || negb (is_empty (sel Mexico100 data))
            || negb (is_empty (sel US_pub data))) eqn:Hcond.
  2:{ exfalso. rewrite !orb_false_iff in Hcond.
      destruct Hcond as [[H1 H2] H3].
      destruct HTa as [<-|[<-|[<-|[]]]];
        [destruct (sel EU70 data) | destruct (sel Mexico100 data) | destruct (sel US_pub data)];
        solve [destruct HinA | discriminate]. }
  eexists. exists (if has_tag Y EU70 a || has_tag Y EU70 b then EU70 else US_pub).
  split; [exact Hm|]. split; [exact Hall|].
  rewrite drop_duplicates_key. simpl existsb. cbv iota.
  rewrite !filter_app.
  unfold data. rewrite !filter_key_sel by (unfold jurisdictions; simpl; tauto).
  rewrite Hkr. cbn [filter].
  pose proof (tags_nonempty_orb Y a Ha) as Hoa.
  pose proof (has_MX_EU Y a) as HMa. pose proof (has_MX_EU Y b) as HMb.
  destruct (has_tag Y EU70 a) eqn:Ea.
  - simpl negb. rewrite andb_false_r. try (simpl; reflexivity).
  - destruct (has_tag Y Mexico100 a) eqn:Ma; [discriminate (HMa eq_refl)|].
    simpl in Hoa. rewrite Hoa.
    destruct (has_tag Y EU70 b) eqn:Eb.
    + simpl. reflexivity.
    + destruct (has_tag Y Mexico100 b) eqn:Mb; [discriminate (HMb eq_refl)|].
      simpl. reflexivity.
Qed.

Lemma all_dedup_pair_witness :
  key_of_raw raw_eu_second = key_of_raw raw_us_first /\
  Forall (fun r => key_of_raw r <> key_of_raw raw_us_first) ([] ++ [] ++ []) /\
  tags_of 2025 raw_us_first <> [] /\ tags_of 2025 raw_eu_second <> [] /\
  exists o rows t,
    main_core 2025 ([] ++ raw_us_first :: [] ++ raw_eu_second :: []) = Ok o /\
    out_all o = AllTagged rows /\
    filter (fun x => key_eqb (key x) (key_of_raw raw_us_first)) rows =
      [(row_of_raw 2025 (if has_tag 2025 EU70 raw_eu_second && negb (has_tag 2025 EU70 raw_us_first)
                        then raw_eu_second else raw_us_first), t)].
Proof.
  assert (H1 : key_of_raw raw_eu_second = key_of_raw raw_us_first) by reflexivity.
  assert (H2 : Forall (fun r => key_of_raw r <> key_of_raw raw_us_first) ([] ++ [] ++ []))
    by (simpl; constructor).
  assert (H3 : tags_of 2025 raw_us_first <> []) by (vm_compute; discriminate).
  assert (H4 : tags_of 2025 raw_eu_second <> []) by (vm_compute; discriminate).
  exact (conj H1 (conj H2 (conj H3 (conj H4 (all_dedup_pair 2025 [] [] [] _ _ H1 H2 H3 H4))))).
Defined.

(** * Further properties of the scanner *)

(** ** Years from ISO dates *)

Lemma year_check_all : forallb year_check (seq 0 (Z.to_nat 10000)) = true.
Proof. vm_compute. reflexivity. Qed.

Lemma year_check_range (y : Z) : 0 <= y <= 9999 -> year_check (Z.to_nat y) = true.
Proof.
  intros Hy. pose proof year_check_all as H. rewrite forallb_forall in H.
  apply H. apply in_seq. split; [lia|].
  rewrite Nat.add_0_l. apply Z2Nat.inj_lt; lia.
Qed.

Lemma py_int_pad4 (y : Z) : 0 <= y <= 9999 ->
  py_int (pad4 y) = Ok y /\ py_int (String "-" (substring 0 3 (pad4 y))) = Ok (- (y / 10)).
Proof.
  intros Hy. pose proof (year_check_range y Hy) as H. unfold year_check in H.
  rewrite Z2Nat.id in H by lia.
  destruct (py_int (pad4 y)) as [a|], (py_int (String "-" (substring 0 3 (pad4 y)))) as [b|];
    try discriminate H.
  apply andb_true_iff in H. destruct H as [Ha Hb].
  apply Z.eqb_eq in Ha, Hb. subst. auto.
Qed.

Lemma substring_0_0 (s : string) : substring 0 0 s = EmptyString.
Proof. destruct s; reflexivity. Qed.

Lemma substring_pad4 (y : Z) (rest : string) : substring 0 4 (pad4 y ++ rest) = pad4 y.
Proof. unfold pad4. simpl. rewrite substring_0_0. reflexivity. Qed.

(** A date literal that starts with a four-digit year (the form
    ["1950-03-01T00:00:00Z"] the query returns) gives that year, whatever
    follows. *)
Theorem extract_year_iso_roundtrip (y : Z) (rest : string) :
  0 <= y <= 9999 ->
  extract_year_from_iso (Some (pad4 y ++ rest)) = Ok (Some y).
Proof.
  intros Hy. destruct (py_int_pad4 y Hy) as [H _].
  unfold extract_year_from_iso.
  replace (truthy (Some (pad4 y ++ rest))) with true by reflexivity.
  rewrite substring_pad4.
  rewrite H. reflexivity.
Qed.

Lemma extract_year_iso_roundtrip_witness :
  (0 <= 1905 <= 9999) /\
  extract_year_from_iso (Some (pad4 1905 ++ "-03-24T00:00:00Z")) = Ok (Some 1905).
Proof.
  assert (H : 0 <= 1905 <= 9999) by lia.
  exact (conj H (extract_year_iso_roundtrip 1905 "-03-24T00:00:00Z" H)).
Defined.

(** A date before year 1, written ["-YYYY-..."], keeps only its first
    three digits: the year found is [-(YYYY / 10)] (["-0500-..."] gives
    [-50]). *)
Theorem extract_year_negative_truncated (y : Z) (rest : string) :
  0 <= y <= 9999 ->
  extract_year_from_iso (Some (String "-" (pad4 y ++ rest))) = Ok (Some (- (y / 10))).
Proof.
  intros Hy. destruct (py_int_pad4 y Hy) as [_ H].
  unfold extract_year_from_iso.
  replace (truthy (Some (String "-" (pad4 y ++ rest)))) with true by reflexivity.
  replace (substring 0 4 (String "-" (pad4 y ++ rest)))
    with (String "-" (substring 0 3 (pad4 y)))
    by (unfold pad4; simpl; reflexivity).
  rewrite H. reflexivity.
Qed.

Lemma extract_year_negative_truncated_witness :
  (0 <= 500 <= 9999) /\
  extract_year_from_iso (Some (String "-" (pad4 500 ++ "-01-01T00:00:00Z"))) = Ok (Some (-50)).
Proof.
  assert (H : 0 <= 500 <= 9999) by lia.
  exact (conj H (extract_year_negative_truncated 500 "-01-01T00:00:00Z" H)).
Defined.

(** ** Tags over time and their encoding *)

(** A record tagged for some current year keeps every tag for any later
    current year: the rules only ever add jurisdictions as time passes. *)
Theorem tags_monotone_in_year (Y Y' : Z) (r : Raw) (T : string) :
  Y <= Y' -> In T (tags_of Y r) -> In T (tags_of Y' r).
Proof.
  intros HY HT. unfold tags_of in *.
  change (death_of (r_death r)) with (death_year (canon_of r)) in *.
  apply in_tags_app in HT. apply in_tags_app.
  destruct HT as [HT | [Hb ->]].
  - left. pose proof (tags_in_jurisdictions Y r T) as Hj.
    unfold death_tags in *.
    destruct (death_year (canon_of r)) as [d|]; [|destruct HT].
    unfold eu_cutoff, mx_cutoff in *.
    destruct (Z.leb_spec d (Y - 71)), (Z.leb_spec d (Y - 101));
      destruct (Z.leb_spec d (Y' - 71)), (Z.leb_spec d (Y' - 101));
      simpl in *; intuition (try lia; try tag_neq).
  - right. split; [|reflexivity].
    apply us_flag_spec. apply us_flag_spec in Hb. exact Hb.
Qed.

Lemma tags_monotone_in_year_witness :
  2025 <= 2040 /\ In EU70 (tags_of 2025 raw_plain) /\ In EU70 (tags_of 2040 raw_plain).
Proof.
  assert (H1 : 2025 <= 2040) by lia.
  assert (H2 : In EU70 (tags_of 2025 raw_plain)) by (vm_compute; left; reflexivity).
  exact (conj H1 (conj H2 (tags_monotone_in_year 2025 2040 raw_plain EU70 H1 H2))).
Defined.

Lemma regions_str_priority (Y : Z) (dy : option Z) (b : bool) :
  let l := (death_tags Y dy ++ (if b then [US_pub] else []))%list in
  regions_str l = py_join "," (filter (fun t => existsb (String.eqb t) l) jurisdictions).
Proof.
  unfold death_tags.
  destruct dy as [d|];
    [destruct (d <=? eu_cutoff Y); destruct (d <=? mx_cutoff Y)|];
    destruct b; reflexivity.
Qed.

(** The exported [regions] column lists each tag of the record once, in the
    order EU70, Mexico100, US_pub, separated by commas (the empty string
    for no tag). *)
Theorem regions_column_layout (Y : Z) (r : Raw) :
  row_regions (row_of_raw Y r) =
  py_join "," (filter (fun t => has_tag Y t r) jurisdictions).
Proof. apply regions_str_priority. Qed.

Lemma append_empty_str (s : string) : s ++ EmptyString = s.
Proof. induction s as [|c s IH]; simpl; [reflexivity | now rewrite IH]. Qed.

Lemma split_go_app (sep : ascii) (x rest cur : string) :
  has_char sep x = false ->
  split_go sep (x ++ rest) cur = split_go sep rest (cur ++ x).
Proof.
  revert cur. induction x as [|a x IH]; intros cur Hx; simpl.
  - rewrite append_empty_str. reflexivity.
  - simpl in Hx. apply orb_false_iff in Hx. destruct Hx as [Ha Hx].
    rewrite Ha, IH by exact Hx. rewrite <- append_assoc_str. reflexivity.
Qed.

Lemma split_go_join_inv (sep : ascii) (xs : list string) :
  Forall (fun g => has_char sep g = false) xs ->
  forall x cur, has_char sep x = false ->
  split_go sep (py_join (String sep EmptyString) (x :: xs)) cur = (cur ++ x) :: xs.
Proof.
  induction 1 as [|y ys Hy Hys IH]; intros x cur Hx.
  - simpl. rewrite <- (append_empty_str x) at 1.
    rewrite split_go_app by exact Hx. reflexivity.
  - change (py_join (String sep EmptyString) (x :: y :: ys))
      with (x ++ String sep EmptyString ++ py_join (String sep EmptyString) (y :: ys)).
    rewrite split_go_app by exact Hx. cbn [append split_go]. rewrite Ascii.eqb_refl.
    rewrite IH by exact Hy. reflexivity.
Qed.

(** Splitting a [sep]-joined list of [sep]-free pieces gives the pieces back. *)
Lemma py_split_py_join (sep : ascii) (xs : list string) :
  xs <> [] -> Forall (fun g => has_char sep g = false) xs ->
  py_split sep (py_join (String sep EmptyString) xs) = xs.
Proof.
  intros Hne Hall. destruct xs as [|x xs]; [contradiction|].
  inversion Hall as [|? ? Hx Hxs]; subst.
  unfold py_split. rewrite split_go_join_inv by assumption. reflexivity.
Qed.

(** The exported [genres] column can be read back: splitting it on commas
    gives the record's genres when there is at least one and none contains a
    comma; with no genre the column is the empty string. *)
Theorem genres_column_roundtrip (c : Canon) (l : list string) :
  (genres c = [] -> row_genres (row_of (c, l)) = "") /\
  (genres c <> [] -> Forall (fun g => has_char ","%char g = false) (genres c) ->
   py_split ","%char (row_genres (row_of (c, l))) = genres c).
Proof.
  split.
  - intros H. simpl. rewrite H. reflexivity.
  - intros Hne Hall. simpl. rewrite genres_str_eq.
    apply py_split_py_join; assumption.
Qed.

Lemma genres_column_roundtrip_witness :
  genres canon_a <> [] /\
  Forall (fun g => has_char ","%char g = false) (genres canon_a) /\
  py_split ","%char (row_genres (row_of (canon_a, [EU70]))) = genres canon_a.
Proof.
  assert (H1 : genres canon_a <> []) by (simpl; discriminate).
  assert (H2 : Forall (fun g => has_char ","%char g = false) (genres canon_a))
    by (simpl; repeat constructor).
  exact (conj H1 (conj H2 (proj2 (genres_column_roundtrip canon_a [EU70]) H1 H2))).
Defined.

(** ** Partition properties *)

Lemma filter_filter_impl {A} (p q : A -> bool) (l : list A) :
  (forall x, p x = true -> q x = true) ->
  filter p (filter q l) = filter p l.
Proof.
  intros Hpq. induction l as [|x l IH]; [reflexivity|]. simpl.
  destruct (q x) eqn:Hq, (p x) eqn:Hp; simpl; rewrite ?Hp, IH; try reflexivity.
  rewrite Hpq in Hq by exact Hp. discriminate.
Qed.

Lemma main_core_outputs (Y : Z) (raws : list Raw) (o : Outputs) :
  main_core Y raws = Ok o ->
  o = {| out_eu := sel EU70 (map (row_of_raw Y) raws);
         out_mx := sel Mexico100 (map (row_of_raw Y) raws);
         out_us := sel US_pub (map (row_of_raw Y) raws);
         out_all := out_all o |}.
Proof.
  intros H. pose proof (main_core_nonempty _ _ _ H) as Hne.
  rewrite main_core_eq, partition_nonempty in H.
  - injection H as <-. reflexivity.
  - destruct raws; [contradiction | discriminate].
Qed.

(** The Mexico100 set is the part of the EU70 set whose records are also
    tagged Mexico100, in the same order: no record is exported as
    Mexico100 without being exported as EU70. *)
Theorem mexico_subset_of_eu (Y : Z) (raws : list Raw) (o : Outputs) :
  main_core Y raws = Ok o ->
  out_mx o = filter (fun row => str_contains Mexico100 (row_regions row)) (out_eu o).
Proof.
  intros H. rewrite (main_core_outputs Y raws o H). simpl.
  change (filter (fun row => str_contains Mexico100 (row_regions row))
            (sel EU70 (map (row_of_raw Y) raws)))
    with (sel Mexico100 (sel EU70 (map (row_of_raw Y) raws))).
  assert (HjE : In EU70 jurisdictions) by (left; reflexivity).
  assert (HjM : In Mexico100 jurisdictions) by (right; left; reflexivity).
  rewrite !sel_map by assumption. f_equal.
  symmetry. apply filter_filter_impl. apply has_MX_EU.
Qed.

Lemma mexico_subset_of_eu_witness :
  main_core 2025 [raw_multi] = Ok out_multi /\
  out_mx out_multi = filter (fun row => str_contains Mexico100 (row_regions row)) (out_eu out_multi).
Proof.
  assert (H : main_core 2025 [raw_multi] = Ok out_multi) by reflexivity.
  exact (conj H (mexico_subset_of_eu 2025 [raw_multi] out_multi H)).
Defined.

Lemma drop_duplicates_keys_fresh (seen : list Key) (xs : list (Row * string)) (k : Key) :
  In k (map key (drop_duplicates seen xs)) -> existsb (key_eqb k) seen = false.
Proof.
  revert seen. induction xs as [|x xs IH]; intros seen Hk; [destruct Hk|].
  simpl in Hk. destruct (existsb (key_eqb (key x)) seen) eqn:Es.
  - apply IH, Hk.
  - destruct Hk as [<- | Hk]; [exact Es|].
    apply IH in Hk. simpl in Hk. apply orb_false_iff in Hk. apply Hk.
Qed.

Lemma drop_duplicates_nodup (seen : list Key) (xs : list (Row * string)) :
  NoDup (map key (drop_duplicates seen xs)).
Proof.
  revert seen. induction xs as [|x xs IH]; intros seen; simpl; [constructor|].
  destruct (existsb (key_eqb (key x)) seen); [apply IH|].
  simpl. constructor; [|apply IH].
  intros Hin. apply drop_duplicates_keys_fresh in Hin. simpl in Hin.
  rewrite key_eqb_refl in Hin. discriminate.
Qed.

(** The global set never holds two rows with the same (title, author)
    pair. *)
Theorem all_keys_unique (Y : Z) (raws : list Raw) (o : Outputs) (rows : list (Row * string)) :
  main_core Y raws = Ok o -> out_all o = AllTagged rows -> NoDup (map key rows).
Proof.
  intros Hmain Hall.
  pose proof (main_core_nonempty _ _ _ Hmain) as Hne.
  rewrite main_core_eq, partition_nonempty in Hmain
    by (destruct raws; [contradiction | discriminate]).
  injection Hmain as <-. simpl in Hall.
  destruct (_ || _ || _); [|discriminate Hall].
  injection Hall as <-. apply drop_duplicates_nodup.
Qed.

Lemma all_keys_unique_witness :
  main_core 2025 [raw_multi] = Ok out_multi /\
  out_all out_multi = AllTagged all_multi /\ NoDup (map key all_multi).
Proof.
  assert (H1 : main_core 2025 [raw_multi] = Ok out_multi) by reflexivity.
  assert (H2 : out_all out_multi = AllTagged all_multi) by reflexivity.
  exact (conj H1 (conj H2 (all_keys_unique 2025 [raw_multi] out_multi all_multi H1 H2))).
Defined.

Lemma drop_duplicates_covers (xs : list (Row * string)) (x : Row * string) :
  In x xs -> exists y, In y (drop_duplicates [] xs) /\ key y = key x.
Proof.
  intros Hx. pose proof (drop_duplicates_key [] xs (key x)) as Hk. simpl in Hk.
  assert (Hin : In x (filter (fun y => key_eqb (key y) (key x)) xs))
    by (apply filter_In; split; [exact Hx | apply key_eqb_refl]).
  destruct (filter (fun y => key_eqb (key y) (key x)) xs) as [|y l] eqn:E;
    [destruct Hin|].
  simpl in Hk. assert (Hy : In y (filter (fun y => key_eqb (key y) (key x)) (drop_duplicates [] xs)))
    by (rewrite Hk; left; reflexivity).
  apply filter_In in Hy. destruct Hy as [Hy Heq].
  exists y. split; [exact Hy | apply key_eqb_eq, Heq].
Qed.

(** Every record that has at least one tag reaches the global set: some
    row of it carries the record's (title, author) pair, and the global
    set is the tagged one, not the fallback. *)
Theorem all_covers_tagged (Y : Z) (raws : list Raw) (o : Outputs) (r : Raw) :
  main_core Y raws = Ok o -> In r raws -> tags_of Y r <> [] ->
  exists rows x, out_all o = AllTagged rows /\ In x rows /\ key x = key_of_raw r.
Proof.
  intros Hmain Hr Htag.
  destruct (tags_nonempty_has Y r Htag) as [T [HT Hh]].
  pose proof (main_core_nonempty _ _ _ Hmain) as Hne.
  rewrite main_core_eq, partition_nonempty in Hmain
    by (destruct raws; [contradiction | discriminate]).
  injection Hmain as <-. cbn [out_all].
  set (data := map (row_of_raw Y) raws).
  assert (Hsel : In (row_of_raw Y r) (sel T data)).
  { unfold data. rewrite sel_map by exact HT. apply in_map, filter_In. auto. }
  assert (Hcat : In (row_of_raw Y r, T)
     (assign (sel EU70 data) EU70 ++ assign (sel Mexico100 data) Mexico100
      ++ assign (sel US_pub data) US_pub)%list).
  { destruct HT as [<-|[<-|[<-|[]]]]; rewrite !in_app_iff, !in_assign; tauto. }
  assert (Hor : negb (is_empty (sel EU70 data)) || negb (is_empty (sel Mexico100 data))
                || negb (is_empty (sel US_pub data)) = true).
  { destruct HT as [<-|[<-|[<-|[]]]];
      [destruct (sel EU70 data) | destruct (sel Mexico100 data) | destruct (sel US_pub data)];
      try (destruct Hsel);
      simpl; rewrite ?orb_true_r; reflexivity. }
  rewrite Hor.
  destruct (drop_duplicates_covers _ _ Hcat) as [y [Hy Hky]].
  exists (drop_duplicates []
           (assign (sel EU70 data) EU70 ++ assign (sel Mexico100 data) Mexico100
            ++ assign (sel US_pub data) US_pub)%list), y.
  split; [reflexivity|]. split; [exact Hy|]. rewrite Hky. reflexivity.
Qed.

Lemma all_covers_tagged_witness :
  main_core 2025 [raw_multi] = Ok out_multi /\ In raw_multi [raw_multi] /\
  tags_of 2025 raw_multi <> [] /\
  exists rows x, out_all out_multi = AllTagged rows /\ In x rows /\ key x = key_of_raw raw_multi.
Proof.
  assert (H1 : main_core 2025 [raw_multi] = Ok out_multi) by reflexivity.
  assert (H2 : In raw_multi [raw_multi]) by (left; reflexivity).
  assert (H3 : tags_of 2025 raw_multi <> []) by (vm_compute; discriminate).
  exact (conj H1 (conj H2 (conj H3 (all_covers_tagged 2025 [raw_multi] out_multi raw_multi H1 H2 H3)))).
Defined.

(** When no record has a tag, the three jurisdiction sets are empty and
    the global set falls back to the whole frame, in input order. *)
Theorem all_fallback_untagged (Y : Z) (raws : list Raw) :
  raws <> [] -> Forall (fun r => tags_of Y r = []) raws ->
  main_core Y raws = Ok (mkOutputs [] [] [] (AllFallback (map (row_of_raw Y) raws))).
Proof.
  intros Hne Hall.
  assert (Hsel : forall T, In T jurisdictions -> sel T (map (row_of_raw Y) raws) = []).
  { intros T HT. rewrite sel_map by exact HT.
    assert (Hf : filter (has_tag Y T) raws = []).
    { clear Hne HT. induction Hall as [|r l Hr _ IH]; [reflexivity|]. simpl.
      unfold has_tag at 1. rewrite Hr. simpl. exact IH. }
    rewrite Hf. reflexivity. }
  rewrite main_core_eq, partition_nonempty
    by (destruct raws; [contradiction | discriminate]).
  rewrite !Hsel by (simpl; tauto). reflexivity.
Qed.

Lemma all_fallback_untagged_witness :
  [raw_untagged] <> [] /\ Forall (fun r => tags_of 2025 r = []) [raw_untagged] /\
  main_core 2025 [raw_untagged] =
    Ok (mkOutputs [] [] [] (AllFallback (map (row_of_raw 2025) [raw_untagged]))).
Proof.
  assert (H1 : [raw_untagged] <> []) by discriminate.
  assert (H2 : Forall (fun r => tags_of 2025 r = []) [raw_untagged])
    by (repeat constructor; vm_compute; reflexivity).
  exact (conj H1 (conj H2 (all_fallback_untagged 2025 [raw_untagged] H1 H2))).
Defined.

Lemma subsets_exact_witness :
  [raw_multi] <> [] /\
  exists o, main_core 2025 [raw_multi] = Ok o /\
    forall T, In T jurisdictions ->
      subset_for o T = map (row_of_raw 2025) (filter (has_tag 2025 T) [raw_multi]).
Proof.
  assert (H : [raw_multi] <> []) by discriminate.
  exact (conj H (subsets_exact 2025 [raw_multi] H)).
Defined.

Lemma drop_duplicates_incl (seen : list Key) (xs : list (Row * string)) (x : Row * string) :
  In x (drop_duplicates seen xs) -> In x xs.
Proof.
  revert seen. induction xs as [|y xs IH]; intros seen Hx; [destruct Hx|].
  simpl in Hx. destruct (existsb (key_eqb (key y)) seen).
  - right. exact (IH _ Hx).
  - destruct Hx as [<-|Hx]; [left; reflexivity | right; exact (IH _ Hx)].
Qed.

(** Every row of the global set is the row of an input record, and its
    [region] column is one of the tags that record has. *)
Theorem all_rows_sound (Y : Z) (raws : list Raw) (o : Outputs) (rows : list (Row * string))
    (x : Row * string) :
  main_core Y raws = Ok o -> out_all o = AllTagged rows -> In x rows ->
  exists r, In r raws /\ fst x = row_of_raw Y r /\ In (snd x) (tags_of Y r).
Proof.
  intros Hmain Hall Hx.
  pose proof (main_core_nonempty _ _ _ Hmain) as Hne.
  rewrite main_core_eq, partition_nonempty in Hmain
    by (destruct raws; [contradiction | discriminate]).
  injection Hmain as <-. simpl in Hall.
  destruct (_ || _ || _); [|discriminate Hall].
  injection Hall as <-. apply drop_duplicates_incl in Hx.
  destruct x as [row t]. simpl.
  assert (Hgen : forall T, In T jurisdictions -> In row (sel T (map (row_of_raw Y) raws)) ->
            t = T -> exists r, In r raws /\ row = row_of_raw Y r /\ In t (tags_of Y r)).
  { intros T HT Hrow ->. rewrite sel_map in Hrow by exact HT.
    apply in_map_iff in Hrow. destruct Hrow as [r [<- Hr]].
    apply filter_In in Hr. destruct Hr as [Hr Hh].
    exists r. split; [exact Hr|]. split; [reflexivity|]. apply has_tag_In, Hh. }
  rewrite !in_app_iff, !in_assign in Hx.
  destruct Hx as [[Hr Ht]|[[Hr Ht]|[Hr Ht]]]; eapply Hgen; eauto; simpl; tauto.
Qed.

Lemma all_rows_sound_witness :
  main_core 2025 [raw_multi] = Ok out_multi /\
  out_all out_multi = AllTagged all_multi /\ In (row_of_raw 2025 raw_multi, EU70) all_multi /\
  exists r, In r [raw_multi] /\ fst (row_of_raw 2025 raw_multi, EU70) = row_of_raw 2025 r /\
            In (snd (row_of_raw 2025 raw_multi, EU70)) (tags_of 2025 r).
Proof.
  assert (H1 : main_core 2025 [raw_multi] = Ok out_multi) by reflexivity.
  assert (H2 : out_all out_multi = AllTagged all_multi) by reflexivity.
  assert (H3 : In (row_of_raw 2025 raw_multi, EU70) all_multi) by (vm_compute; left; reflexivity).
  exact (conj H1 (conj H2 (conj H3
    (all_rows_sound 2025 [raw_multi] out_multi all_multi _ H1 H2 H3)))).
Defined.

(** ** Configuration *)

(** A year written as a quoted four-digit string in the configuration is
    read as that year, and the clock is ignored. *)
Theorem config_year_quoted (kvs : list (string * yaml)) (y now : Z) :
  0 <= y <= 9999 -> dict_get "current_year" kvs = Some (YStr (pad4 y)) ->
  current_year (load_config (Some (YMap kvs))) now = inl y.
Proof.
  intros Hy Hk. simpl. rewrite Hk. simpl.
  rewrite (proj1 (py_int_pad4 y Hy)). reflexivity.
Qed.

Lemma config_year_quoted_witness :
  0 <= 2030 <= 9999 /\
  dict_get "current_year" [("current_year", YStr (pad4 2030))] = Some (YStr (pad4 2030)) /\
  current_year (load_config (Some (YMap [("current_year", YStr (pad4 2030))]))) 2026 = inl 2030.
Proof.
  assert (H1 : 0 <= 2030 <= 9999) by lia.
  assert (H2 : dict_get "current_year" [("current_year", YStr (pad4 2030))]
               = Some (YStr (pad4 2030))) by reflexivity.
  exact (conj H1 (conj H2 (config_year_quoted _ 2030 2026 H1 H2))).
Defined.

(** ** SPARQL bindings *)

(** A result row whose [death] and [pubYear] bindings are missing, empty
    or without a [value] gives a record with no tag. *)
Lemma binding_no_dates_tags (row : Binding) (Y : Z) :
  get_val row "death" = None -> get_val row "pubYear" = None ->
  tags_of Y (raw_of_binding row) = [].
Proof.
  intros Hd Hp. unfold tags_of, raw_of_binding. simpl. rewrite Hd, Hp. reflexivity.
Qed.

Lemma sel_contains (T : string) (data : list Row) (x : Row) :
  In x (sel T data) -> str_contains T (row_regions x) = true.
Proof. unfold sel. rewrite filter_In. tauto. Qed.

Lemma untagged_not_selected (Y : Z) (r : Raw) (T : string) (data : list Row) :
  tags_of Y r = [] -> In T jurisdictions -> ~ In (row_of_raw Y r) (sel T data).
Proof.
  intros Ht HT Hin. apply sel_contains in Hin.
  unfold row_of_raw in Hin. simpl in Hin. rewrite Ht in Hin.
  destruct HT as [<-|[<-|[<-|[]]]]; discriminate Hin.
Qed.

(** A result row whose [death] and [pubYear] bindings are missing, empty
    or without a [value] never reaches a jurisdiction set, nor the global
    set when that set is the tagged one: its row can only be exported in
    the fallback global set, which holds it whenever the record is among
    the input records. *)
Theorem binding_without_dates_fallback_only (row : Binding) (Y : Z) (raws : list Raw)
    (o : Outputs) :
  main_core Y raws = Ok o -> get_val row "death" = None -> get_val row "pubYear" = None ->
  (forall T, In T jurisdictions -> ~ In (row_of_raw Y (raw_of_binding row)) (subset_for o T)) /\
  (forall rows t, out_all o = AllTagged rows -> ~ In (row_of_raw Y (raw_of_binding row), t) rows) /\
  (forall rows, out_all o = AllFallback rows -> In (raw_of_binding row) raws ->
     In (row_of_raw Y (raw_of_binding row)) rows).
Proof.
  intros Hmain Hd Hp.
  pose proof (binding_no_dates_tags row Y Hd Hp) as Ht.
  pose proof (main_core_nonempty _ _ _ Hmain) as Hne.
  rewrite main_core_eq, partition_nonempty in Hmain
    by (destruct raws; [contradiction | discriminate]).
  injection Hmain as <-.
  set (data := map (row_of_raw Y) raws).
  split; [|split].
  - intros T HT Hin. apply (untagged_not_selected Y _ T data Ht HT).
    destruct HT as [<-|[<-|[<-|[]]]]; exact Hin.
  - intros rows t Hall Hin. cbn [out_all] in Hall.
    destruct (_ || _ || _); [|discriminate Hall].
    injection Hall as <-. apply drop_duplicates_incl in Hin.
    rewrite !in_app_iff, !in_assign in Hin.
    destruct Hin as [[Hin _]|[[Hin _]|[Hin _]]];
      refine (untagged_not_selected Y _ _ data Ht _ Hin); simpl; tauto.
  - intros rows Hall Hr. cbn [out_all] in Hall.
    destruct (_ || _ || _); [discriminate Hall|].
    injection Hall as <-. apply in_map, Hr.
Qed.

Lemma binding_without_dates_fallback_only_witness :
  main_core 2025 [raw_multi; raw_of_binding binding_no_dates] = Ok out_with_binding /\
  get_val binding_no_dates "death" = None /\ get_val binding_no_dates "pubYear" = None /\
  ((forall T, In T jurisdictions ->
      ~ In (row_of_raw 2025 (raw_of_binding binding_no_dates)) (subset_for out_with_binding T)) /\
   (forall rows t, out_all out_with_binding = AllTagged rows ->
      ~ In (row_of_raw 2025 (raw_of_binding binding_no_dates), t) rows) /\
   (forall rows, out_all out_with_binding = AllFallback rows ->
      In (raw_of_binding binding_no_dates) [raw_multi; raw_of_binding binding_no_dates] ->
      In (row_of_raw 2025 (raw_of_binding binding_no_dates)) rows)).
Proof.
  assert (H1 : main_core 2025 [raw_multi; raw_of_binding binding_no_dates] = Ok out_with_binding)
    by (vm_compute; reflexivity).
  assert (H2 : get_val binding_no_dates "death" = None) by reflexivity.
  assert (H3 : get_val binding_no_dates "pubYear" = None) by reflexivity.
  exact (conj H1 (conj H2 (conj H3
    (binding_without_dates_fallback_only binding_no_dates 2025 _ _ H1 H2 H3)))).
Defined.
